(** * Compliance dashboard API: filter compiler, due-status classifier and
      lifecycle updates of [main.py], as a shallow embedding.

    Rows of the SQLite store are records; a nullable column is an [option].
    SQL's three-valued logic only occurs under AND/OR (no NOT) in the queries
    modelled here, so "NULL" and "false" are merged into [false] in a WHERE
    clause, which is what SQLite does when it keeps a row. Dates are the
    [TEXT] values the store holds ('YYYY-MM-DD'), compared byte-wise like
    SQLite's BINARY collation ([String.compare]); Python [date] values are
    day numbers. *)

From Stdlib Require Import ZArith List String Ascii Bool Lia.
Import ListNotations.
Open Scope Z_scope.

(* ------------------------------------------------------------------ *)
(** ** Python outcomes *)

Inductive exn :=
| ValueError
| OverflowError.

Inductive outcome (A : Type) :=
| Ok (a : A)
| Raise (e : exn).
Arguments Ok {A} a.
Arguments Raise {A} e.

(** HTTP answer of an endpoint: acknowledgment or an error status code
    (422: pydantic validation, 400/404: [HTTPException]). *)
Inductive response :=
| RespOk
| RespErr (status_code : Z).

(* ------------------------------------------------------------------ *)
(** ** Calendar: [datetime.date] as a day number *)

Definition is_leap (y : Z) : bool :=
  (Z.eqb (y mod 4) 0 && negb (Z.eqb (y mod 100) 0)) || Z.eqb (y mod 400) 0.

Definition days_in_month (y m : Z) : Z :=
  if Z.eqb m 2 then (if is_leap y then 29 else 28)
  else if existsb (Z.eqb m) [4; 6; 9; 11] then 30 else 31.

(** Day number of a proleptic Gregorian date (0 = 1970-01-01). *)
Definition days_from_civil (y m d : Z) : Z :=
  let y' := if m <=? 2 then y - 1 else y in
  let era := y' / 400 in
  let yoe := y' - era * 400 in
  let mp := if m >? 2 then m - 3 else m + 9 in
  let doy := (153 * mp + 2) / 5 + d - 1 in
  let doe := yoe * 365 + yoe / 4 - yoe / 100 + doy in
  era * 146097 + doe - 719468.

(** Inverse of [days_from_civil]: (year, month, day). *)
Definition civil_from_days (z : Z) : Z * Z * Z :=
  let z' := z + 719468 in
  let era := z' / 146097 in
  let doe := z' - era * 146097 in
  let yoe := (doe - doe / 1460 + doe / 36524 - doe / 146096) / 365 in
  let y := yoe + era * 400 in
  let doy := doe - (365 * yoe + yoe / 4 - yoe / 100) in
  let mp := (5 * doy + 2) / 153 in
  let d := doy - (153 * mp + 2) / 5 + 1 in
  let m := if mp <? 10 then mp + 3 else mp - 9 in
  (if m <=? 2 then y + 1 else y, m, d).

(** [date.min] and [date.max] of Python. *)
Definition date_min : Z := days_from_civil 1 1 1.
Definition date_max : Z := days_from_civil 9999 12 31.

Definition digit_val (c : ascii) : option Z :=
  let n := Z.of_nat (nat_of_ascii c) in
  if (48 <=? n) && (n <=? 57) then Some (n - 48) else None.

Fixpoint digits_val (acc : Z) (s : list ascii) : option Z :=
  match s with
  | [] => Some acc
  | c :: s' =>
      match digit_val c with
      | Some v => digits_val (acc * 10 + v) s'
      | None => None
      end
  end.

(** [date.fromisoformat] on the 'YYYY-MM-DD' form; [None] is the
    [ValueError]. On the strings the update endpoint admits (10 characters,
    dashes at 4 and 7) every Python version reads exactly this form. Python
    3.11 and later also read 'YYYYMMDD' and ISO week dates, which only a row
    written outside this API can hold; the classifier theorems below speak
    of strings this parser reads. *)
Definition fromisoformat (s : string) : option Z :=
  match list_ascii_of_string s with
  | [y1; y2; y3; y4; d1; m1; m2; d2; a1; a2] =>
      if (Ascii.eqb d1 "-"%char) && (Ascii.eqb d2 "-"%char) then
        match digits_val 0 [y1; y2; y3; y4], digits_val 0 [m1; m2],
              digits_val 0 [a1; a2] with
        | Some y, Some m, Some d =>
            if (1 <=? y) && (y <=? 9999) && (1 <=? m) && (m <=? 12)
               && (1 <=? d) && (d <=? days_in_month y m)
            then Some (days_from_civil y m d) else None
        | _, _, _ => None
        end
      else None
  | _ => None
  end.

Fixpoint pad_digits (width : nat) (n : Z) : list ascii :=
  match width with
  | O => []
  | S w => pad_digits w (n / 10) ++ [ascii_of_nat (Z.to_nat (48 + n mod 10))]
  end.

(** SQLite's [date(...)] text of a day number: 'YYYY-MM-DD'. *)
Definition iso_of_days (z : Z) : string :=
  let '(y, m, d) := civil_from_days z in
  string_of_list_ascii
    (pad_digits 4 y ++ ["-"%char] ++ pad_digits 2 m ++ ["-"%char] ++ pad_digits 2 d).

(* ------------------------------------------------------------------ *)
(** ** [classify_site_status] *)

Inductive ui_status :=
| DUE
| DUE_SOON
| OK.

(** [today] is [date.today()]; [today + timedelta(days=30)] raises
    [OverflowError] past [date.max]. *)
Definition classify_site_status (today : Z) (min_next_due : option string)
    (has_overdue : bool) : outcome ui_status :=
  if has_overdue then Ok DUE
  else
    match min_next_due with
    | None => Ok OK
    | Some s =>
        if String.eqb s "" then Ok OK
        else
          match fromisoformat s with
          | None => Raise ValueError
          | Some nd =>
              if nd <? today then Ok DUE
              else if date_max <? today + 30 then Raise OverflowError
              else if nd <=? today + 30 then Ok DUE_SOON
              else Ok OK
          end
    end.

(* ------------------------------------------------------------------ *)
(** ** The store: tables [site] and [ppm_plan] *)

Record site := mk_site {
  site_id : string;
  name : option string;
  uprn : option string;
  site_code : option string;
  status : option string;
  site_type_code : option string;
  updated_at : option string
}.

(** A [ppm_plan] row; [plan_site_id] is its column [site_id]. *)
Record ppm_plan := mk_plan {
  ppm_plan_id : Z;
  plan_site_id : string;
  category_id : option Z;
  priority : option string;
  finished_date : option string;
  next_due_date : option string;
  is_active : option Z;
  retired_at : option string;
  retired_reason : option string;
  suspended_until : option string
}.

Record db := mk_db {
  sites : list site;
  plans : list ppm_plan
}.

(** SQL comparisons of a nullable column with a value: NULL is never true. *)
Definition sql_text_eq (a : option string) (b : string) : bool :=
  match a with Some x => String.eqb x b | None => false end.
Definition sql_text_lt (a : option string) (b : string) : bool :=
  match a with Some x => String.ltb x b | None => false end.
Definition sql_text_le (a : option string) (b : string) : bool :=
  match a with Some x => String.leb x b | None => false end.
Definition sql_text_ge (a : option string) (b : string) : bool :=
  match a with Some x => String.leb b x | None => false end.
Definition sql_int_eq (a : option Z) (b : Z) : bool :=
  match a with Some x => Z.eqb x b | None => false end.
Definition is_null {A} (a : option A) : bool :=
  match a with None => true | Some _ => false end.

(** [x BETWEEN lo AND hi] is [x >= lo AND x <= hi]. *)
Definition sql_text_between (a : option string) (lo hi : string) : bool :=
  sql_text_ge a lo && sql_text_le a hi.

(** [view_active_ppm]: [is_active = 1 AND (suspended_until IS NULL OR
    suspended_until <= date('now'))]; [now] is [date('now')]. *)
Definition view_active_ppm (now : string) (p : ppm_plan) : bool :=
  sql_int_eq (is_active p) 1
  && (is_null (suspended_until p) || sql_text_le (suspended_until p) now).

(* ------------------------------------------------------------------ *)
(** ** SQLite [LOWER] and [LIKE] (ASCII, no ESCAPE) *)

Definition lower_ascii (c : ascii) : ascii :=
  let n := nat_of_ascii c in
  if (Nat.leb 65 n && Nat.leb n 90)%nat then ascii_of_nat (n + 32) else c.

(** SQLite's [LOWER] folds the ASCII letters only. [build_where] also
    applies it for Python's [q.lower()], which agrees with it on ASCII text;
    a non-ASCII capital letter in [q] is left as it is here. *)
Definition lower (s : string) : string :=
  string_of_list_ascii (map lower_ascii (list_ascii_of_string s)).

(** A UTF-8 continuation byte (10xxxxxx). *)
Definition is_cont (c : ascii) : bool :=
  let n := nat_of_ascii c in (Nat.leb 128 n && Nat.leb n 191)%nat.

Fixpoint drop_cont (s : list ascii) : list ascii :=
  match s with
  | c :: s' => if is_cont c then drop_cont s' else s
  | [] => []
  end.

(** [LIKE] on UTF-8 text: case-insensitive on ASCII letters only; [%]
    matches any sequence, [_] any one character (a lead byte and its
    continuation bytes). *)
Fixpoint like_match (p s : list ascii) : bool :=
  match p with
  | [] => match s with [] => true | _ => false end
  | c :: p' =>
      if Ascii.eqb c "%"%char then
        (fix go (t : list ascii) : bool :=
           like_match p' t || match t with [] => false | _ :: t' => go t' end) s
      else if Ascii.eqb c "_"%char then
        match s with
        | [] => false
        | _ :: s' => like_match p' (drop_cont s')
        end
      else
        match s with
        | [] => false
        | d :: s' => Ascii.eqb (lower_ascii c) (lower_ascii d) && like_match p' s'
        end
  end.

Definition sql_like (a : option string) (pat : string) : bool :=
  match a with
  | Some x => like_match (list_ascii_of_string pat) (list_ascii_of_string x)
  | None => false
  end.

(* ------------------------------------------------------------------ *)
(** ** [build_where] *)

(** The [filters] dict built by [api_sites]/[api_export_sites_csv]; every key
    is present. [filters.get(k)] is tested for Python truthiness. *)
Record filters := mk_filters {
  f_q : string;
  f_status : string;
  f_site_type : string;
  f_category_id : option Z;
  f_priority : string;
  f_due_window : string
}.

Definition truthy_str (s : string) : bool := negb (String.eqb s "").
Definition truthy_int (v : option Z) : bool :=
  match v with Some c => negb (Z.eqb c 0) | None => false end.

(** Conditions appended inside the [EXISTS] on [view_active_ppm ap]. *)
Inductive plan_cond :=
| PC_category (c : Z)          (* ap.category_id = ? *)
| PC_priority (pr : string)    (* ap.priority = ? *)
| PC_overdue                   (* ap.next_due_date IS NOT NULL AND < date('now') *)
| PC_soon                      (* BETWEEN date('now') AND date('now','+30 days') *)
| PC_quarter.                  (* BETWEEN date('now') AND date('now','+90 days') *)

(** Conjuncts appended to [" WHERE 1=1 "], with their bound parameters. *)
Inductive site_cond :=
| SC_status (v : string)               (* s.status = ? *)
| SC_site_type (v : string)            (* s.site_type_code = ? *)
| SC_q (like : string)                 (* LOWER(name/site_code/uprn) LIKE ? *)
| SC_exists (conds : list plan_cond).  (* EXISTS (... view_active_ppm ...) *)

Definition build_where (f : filters) : list site_cond :=
  (if truthy_str (f_status f) then [SC_status (f_status f)] else [])
  ++ (if truthy_str (f_site_type f) then [SC_site_type (f_site_type f)] else [])
  ++ (if truthy_str (f_q f) then [SC_q ("%" ++ lower (f_q f) ++ "%")] else [])
  ++ (if truthy_int (f_category_id f) || truthy_str (f_priority f)
         || truthy_str (f_due_window f) then
        [SC_exists
           ((if truthy_int (f_category_id f) then
               match f_category_id f with Some c => [PC_category c] | None => [] end
             else [])
            ++ (if truthy_str (f_priority f) then [PC_priority (f_priority f)] else [])
            ++ (let dw := f_due_window f in
                if String.eqb dw "overdue" then [PC_overdue]
                else if String.eqb dw "soon" then [PC_soon]
                else if String.eqb dw "quarter" then [PC_quarter]
                else []))]
      else []).

(** Evaluation of the compiled WHERE clause; [today] is the day number of
    [date('now')]. *)
Definition eval_plan_cond (today : Z) (p : ppm_plan) (c : plan_cond) : bool :=
  match c with
  | PC_category v => sql_int_eq (category_id p) v
  | PC_priority v => sql_text_eq (priority p) v
  | PC_overdue =>
      negb (is_null (next_due_date p)) && sql_text_lt (next_due_date p) (iso_of_days today)
  | PC_soon =>
      sql_text_between (next_due_date p) (iso_of_days today) (iso_of_days (today + 30))
  | PC_quarter =>
      sql_text_between (next_due_date p) (iso_of_days today) (iso_of_days (today + 90))
  end.

Definition eval_site_cond (today : Z) (st : db) (s : site) (c : site_cond) : bool :=
  match c with
  | SC_status v => sql_text_eq (status s) v
  | SC_site_type v => sql_text_eq (site_type_code s) v
  | SC_q like =>
      sql_like (option_map lower (name s)) like
      || sql_like (option_map lower (site_code s)) like
      || sql_like (option_map lower (uprn s)) like
  | SC_exists conds =>
      existsb (fun ap => view_active_ppm (iso_of_days today) ap
                         && String.eqb (plan_site_id ap) (site_id s)
                         && forallb (eval_plan_cond today ap) conds)
              (plans st)
  end.

Definition where_holds (today : Z) (st : db) (w : list site_cond) (s : site) : bool :=
  forallb (eval_site_cond today st s) w.

(* ------------------------------------------------------------------ *)
(** ** [api_sites] *)

(** The white space of [str.strip()] ([Py_UNICODE_ISSPACE]), on the UTF-8
    bytes of the text: U+0009..U+000D, U+001C..U+0020 (one byte), U+0085,
    U+00A0 (two bytes), U+1680, U+2000..U+200A, U+2028, U+2029, U+202F,
    U+205F, U+3000 (three bytes). *)
Definition is_space (c : ascii) : bool :=
  let n := nat_of_ascii c in
  (Nat.eqb n 32 || (Nat.leb 9 n && Nat.leb n 13) || (Nat.leb 28 n && Nat.leb n 31))%nat.

Definition is_space2 (c d : ascii) : bool :=
  let a := nat_of_ascii c in
  let b := nat_of_ascii d in
  (Nat.eqb a 194 && (Nat.eqb b 133 || Nat.eqb b 160))%nat.

Definition is_space3 (c d e : ascii) : bool :=
  let a := nat_of_ascii c in
  let b := nat_of_ascii d in
  let x := nat_of_ascii e in
  (Nat.eqb a 225 && Nat.eqb b 154 && Nat.eqb x 128
   || Nat.eqb a 226 && Nat.eqb b 128
      && ((Nat.leb 128 x && Nat.leb x 138) || Nat.eqb x 168 || Nat.eqb x 169 || Nat.eqb x 175)
   || Nat.eqb a 226 && Nat.eqb b 129 && Nat.eqb x 159
   || Nat.eqb a 227 && Nat.eqb b 128 && Nat.eqb x 128)%nat.

(** Leading white space. *)
Fixpoint drop_space (s : list ascii) : list ascii :=
  match s with
  | c :: s1 =>
      if is_space c then drop_space s1
      else match s1 with
           | d :: s2 =>
               if is_space2 c d then drop_space s2
               else match s2 with
                    | e :: s3 => if is_space3 c d e then drop_space s3 else s
                    | [] => s
                    end
           | [] => s
           end
  | [] => []
  end.

(** Leading white space of a reversed text (the encodings read backwards;
    a lead byte is never a continuation byte, so a match is a whole
    character). *)
Fixpoint drop_space_rev (s : list ascii) : list ascii :=
  match s with
  | c :: s1 =>
      if is_space c then drop_space_rev s1
      else match s1 with
           | d :: s2 =>
               if is_space2 d c then drop_space_rev s2
               else match s2 with
                    | e :: s3 => if is_space3 e d c then drop_space_rev s3 else s
                    | [] => s
                    end
           | [] => s
           end
  | [] => []
  end.

(** [str.strip()]. *)
Definition strip (s : string) : string :=
  string_of_list_ascii
    (rev (drop_space_rev (rev (drop_space (list_ascii_of_string s))))).

(** [(x or "").strip()]. *)
Definition opt_strip (x : option string) : string :=
  match x with Some s => strip s | None => "" end.

(** [ORDER BY s.name]: NULL first, then BINARY collation; ties keep table
    order (SQLite leaves it unspecified). *)
Definition name_le (a b : site) : bool :=
  match name a, name b with
  | None, _ => true
  | Some _, None => false
  | Some x, Some y => String.leb x y
  end.

Fixpoint insert_by_name (s : site) (l : list site) : list site :=
  match l with
  | [] => [s]
  | t :: l' => if name_le t s then t :: insert_by_name s l' else s :: l
  end.

Definition sort_by_name (l : list site) : list site :=
  fold_left (fun acc s => insert_by_name s acc) l [].

(** [LIMIT ?]: a negative limit is no limit in SQLite. *)
Definition sql_limit {A} (limit : Z) (l : list A) : list A :=
  if limit <? 0 then l else firstn (Z.to_nat limit) l.

(** One row of the listing. *)
Record site_summary := mk_summary {
  row_site : site;
  min_next_due : option string;
  overdue_count : Z;
  active_ppm : Z;
  row_ui_status : ui_status
}.

Definition text_min (a : option string) (b : string) : option string :=
  match a with
  | None => Some b
  | Some x => if String.leb x b then Some x else Some b
  end.

(** The three correlated sub-selects over [view_active_ppm] and the Python
    post-processing ([or None], [int(... or 0)], [classify_site_status]). *)
Definition summarize (today : Z) (st : db) (s : site) : outcome site_summary :=
  let now := iso_of_days today in
  let mine := filter (fun p => view_active_ppm now p
                               && String.eqb (plan_site_id p) (site_id s)) (plans st) in
  let mn := fold_left (fun acc p => match next_due_date p with
                                    | Some d => text_min acc d
                                    | None => acc end) mine None in
  let mn := match mn with Some x => if String.eqb x "" then None else mn | None => None end in
  let od := Z.of_nat (List.length (filter (fun p => negb (is_null (next_due_date p))
                                         && sql_text_lt (next_due_date p) now) mine)) in
  let act := Z.of_nat (List.length mine) in
  match classify_site_status today mn (0 <? od) with
  | Ok u => Ok (mk_summary s mn od act u)
  | Raise e => Raise e
  end.

Fixpoint map_outcome {A B} (f : A -> outcome B) (l : list A) : outcome (list B) :=
  match l with
  | [] => Ok []
  | x :: l' =>
      match f x with
      | Raise e => Raise e
      | Ok y => match map_outcome f l' with
                | Ok ys => Ok (y :: ys)
                | Raise e => Raise e
                end
      end
  end.

(** The [filters] dict of [api_sites] (and of [api_export_sites_csv]). *)
Definition sites_filters (q status site_type : option string) (category_id : option Z)
    (priority : option string) (due_window : string) : filters :=
  mk_filters (opt_strip q) (opt_strip status) (opt_strip site_type) category_id
             (opt_strip priority) due_window.

(** The site rows selected by the query of [api_sites], in order. *)
Definition select_sites (today : Z) (st : db) (f : filters) (limit : Z) : list site :=
  sql_limit limit (sort_by_name (filter (where_holds today st (build_where f)) (sites st))).

(** [api_sites]; [due_window] ranges over the [Literal] of its signature
    (default "all"), [limit] defaults to 50. *)
Definition api_sites (today : Z) (st : db) (q status site_type : option string)
    (category_id : option Z) (priority : option string) (due_window : string)
    (limit : Z) : outcome (list site_summary) :=
  map_outcome (summarize today st)
    (select_sites today st (sites_filters q status site_type category_id priority due_window)
       limit).

(* ------------------------------------------------------------------ *)
(** ** Request bodies and their pydantic validation *)

(** A JSON value of a request field: [JNum] is a JSON integer, [JFloat m e]
    a JSON number with a fraction or exponent, parsed to the double
    [m * 2^e]. *)
#[warnings="-register-all"]
Inductive json :=
| JNull
| JBool (b : bool)
| JNum (z : Z)
| JStr (s : string)
| JFloat (m e : Z)
| JArr (l : list json)
| JObj (l : list (string * json)).

(** The double [m * 2^e] equals [1.0]. *)
Definition float_is_one (m e : Z) : bool :=
  if e <? 0 then Z.eqb m (2 ^ (- e)) else Z.eqb e 0 && Z.eqb m 1.

(** The raw PATCH body of [/api/ppm/{id}]: [None] is a key left out. *)
Record ppm_update_raw := mk_raw {
  raw_finished_date : option json;
  raw_next_due_date : option json;
  raw_is_active : option json;
  raw_retired_reason : option json;
  raw_retired_at : option json;
  raw_suspended_until : option json
}.

(** The validated [PpmUpdate] model. *)
Record PpmUpdate := mk_PpmUpdate {
  body_finished_date : option string;
  body_next_due_date : option string;
  body_is_active : option bool;
  body_retired_reason : option string;
  body_retired_at : option string;
  body_suspended_until : option string
}.

(** [len(v) == 10 and v[4] == "-" and v[7] == "-"]. *)
Definition date_shape (s : string) : bool :=
  Nat.eqb (String.length s) 10
  && match String.get 4 s, String.get 7 s with
     | Some a, Some b => Ascii.eqb a "-"%char && Ascii.eqb b "-"%char
     | _, _ => false
     end.

(** [PpmUpdate.date_like] (mode "before"); [None] is the [ValueError]. *)
Definition date_like (v : json) : option (option string) :=
  match v with
  | JNull => Some None
  | JStr s =>
      if String.eqb s "" then Some None
      else if date_shape s then Some (Some s)
      else None
  | _ => None
  end.

(** An [Optional[str]] field without validator. *)
Definition opt_str (v : json) : option (option string) :=
  match v with
  | JNull => Some None
  | JStr s => Some (Some s)
  | _ => None
  end.

(** An [Optional[bool]] field in pydantic's lax mode. *)
Definition opt_bool (v : json) : option (option bool) :=
  match v with
  | JNull => Some None
  | JBool b => Some (Some b)
  | JNum 0 => Some (Some false)
  | JNum 1 => Some (Some true)
  | JFloat m e =>
      if Z.eqb m 0 then Some (Some false)
      else if float_is_one m e then Some (Some true)
      else None
  | JStr s =>
      let t := lower s in
      if existsb (String.eqb t) ["0"; "off"; "f"; "false"; "n"; "no"]%string then Some (Some false)
      else if existsb (String.eqb t) ["1"; "on"; "t"; "true"; "y"; "yes"]%string then Some (Some true)
      else None
  | _ => None
  end.

(** A field left out takes the default [None]; validators run on given
    fields only. *)
Definition field {A} (check : json -> option (option A)) (v : option json)
    : option (option A) :=
  match v with None => Some None | Some j => check j end.

Definition validate_PpmUpdate (r : ppm_update_raw) : option PpmUpdate :=
  match field date_like (raw_finished_date r), field date_like (raw_next_due_date r),
        field opt_bool (raw_is_active r), field opt_str (raw_retired_reason r),
        field date_like (raw_retired_at r), field date_like (raw_suspended_until r) with
  | Some fd, Some nd, Some ia, Some rr, Some ra, Some su =>
      Some (mk_PpmUpdate fd nd ia rr ra su)
  | _, _, _, _, _, _ => None
  end.

(* ------------------------------------------------------------------ *)
(** ** [api_update_ppm] *)

Inductive text_col :=
| Col_finished_date
| Col_next_due_date
| Col_retired_reason
| Col_suspended_until
| Col_retired_at.

(** Right-hand side of a SET item: a bound parameter, [NULL] or
    [date('now')]. *)
Inductive rhs :=
| Param (v : option string)
| SqlNull
| DateNow.

(** One item of the [fields] list, with its value from [vals]. *)
Inductive assignment :=
| Set_text (c : text_col) (e : rhs)
| Set_is_active (v : Z).

(** [v or None] *)
Definition or_none (v : string) : option string :=
  if String.eqb v "" then None else Some v.

Definition getattr (body : PpmUpdate) (k : text_col) : option string :=
  match k with
  | Col_finished_date => body_finished_date body
  | Col_next_due_date => body_next_due_date body
  | Col_retired_reason => body_retired_reason body
  | Col_suspended_until => body_suspended_until body
  | Col_retired_at => body_retired_at body
  end.

(** The [fields]/[vals] lists built by [api_update_ppm]. *)
Definition ppm_fields (body : PpmUpdate) : list assignment :=
  flat_map (fun k => match getattr body k with
                     | Some v => [Set_text k (Param (or_none v))]
                     | None => []
                     end)
           [Col_finished_date; Col_next_due_date; Col_retired_reason; Col_suspended_until]
  ++ match body_is_active body with
     | None => []
     | Some act =>
         Set_is_active (if act then 1 else 0)
         :: (if negb act then
               match body_retired_at body with
               | Some ra => [Set_text Col_retired_at (Param (Some ra))]
               | None => [Set_text Col_retired_at DateNow]
               end
             else [Set_text Col_retired_at SqlNull; Set_text Col_retired_reason SqlNull])
     end.

Definition eval_rhs (now : string) (e : rhs) : option string :=
  match e with
  | Param v => v
  | SqlNull => None
  | DateNow => Some now
  end.

Definition set_text (p : ppm_plan) (c : text_col) (v : option string) : ppm_plan :=
  match c with
  | Col_finished_date =>
      mk_plan (ppm_plan_id p) (plan_site_id p) (category_id p) (priority p) v
              (next_due_date p) (is_active p) (retired_at p) (retired_reason p)
              (suspended_until p)
  | Col_next_due_date =>
      mk_plan (ppm_plan_id p) (plan_site_id p) (category_id p) (priority p)
              (finished_date p) v (is_active p) (retired_at p) (retired_reason p)
              (suspended_until p)
  | Col_retired_reason =>
      mk_plan (ppm_plan_id p) (plan_site_id p) (category_id p) (priority p)
              (finished_date p) (next_due_date p) (is_active p) (retired_at p) v
              (suspended_until p)
  | Col_suspended_until =>
      mk_plan (ppm_plan_id p) (plan_site_id p) (category_id p) (priority p)
              (finished_date p) (next_due_date p) (is_active p) (retired_at p)
              (retired_reason p) v
  | Col_retired_at =>
      mk_plan (ppm_plan_id p) (plan_site_id p) (category_id p) (priority p)
              (finished_date p) (next_due_date p) (is_active p) v (retired_reason p)
              (suspended_until p)
  end.

Definition set_is_active (p : ppm_plan) (v : Z) : ppm_plan :=
  mk_plan (ppm_plan_id p) (plan_site_id p) (category_id p) (priority p)
          (finished_date p) (next_due_date p) (Some v) (retired_at p) (retired_reason p)
          (suspended_until p).

Definition apply_assignment (now : string) (p : ppm_plan) (a : assignment) : ppm_plan :=
  match a with
  | Set_text c e => set_text p c (eval_rhs now e)
  | Set_is_active v => set_is_active p v
  end.

(** [UPDATE ppm_plan SET ... WHERE ppm_plan_id = ?]. No right-hand side reads
    the row, and of a column named twice SQLite keeps the rightmost
    assignment, so applying the items left to right is the statement. *)
Definition update_ppm_plan (now : string) (id : Z) (fields : list assignment) (st : db) : db :=
  mk_db (sites st)
        (map (fun p => if Z.eqb (ppm_plan_id p) id
                       then fold_left (apply_assignment now) fields p else p)
             (plans st)).

(** [api_update_ppm]; [now] is [date('now')] when the statement runs. *)
Definition api_update_ppm (now : string) (ppm_plan_id : Z) (body : PpmUpdate) (st : db)
    : response * db :=
  match ppm_fields body with
  | [] => (RespErr 400, st)
  | fields => (RespOk, update_ppm_plan now ppm_plan_id fields st)
  end.

(** PATCH [/api/ppm/{ppm_plan_id}]: body validation (422), then the handler. *)
Definition patch_ppm (now : string) (ppm_plan_id : Z) (raw : ppm_update_raw) (st : db)
    : response * db :=
  match validate_PpmUpdate raw with
  | None => (RespErr 422, st)
  | Some body => api_update_ppm now ppm_plan_id body st
  end.

(* ------------------------------------------------------------------ *)
(** ** [api_update_site] *)

Definition site_statuses : list string :=
  ["Active"; "Closed"; "Suspended"; "Under-Construction"; "Unknown"]%string.

(** [SiteUpdate]: [status] is a [Literal] of the five values. *)
Definition validate_SiteUpdate (v : json) : option string :=
  match v with
  | JStr s => if existsb (String.eqb s) site_statuses then Some s else None
  | _ => None
  end.

(** [UPDATE site SET status=?, updated_at=CURRENT_TIMESTAMP WHERE site_id=?]
    and its [rowcount]. *)
Definition update_site_rows (ts : string) (sid stat : string) (st : db) : db * nat :=
  (mk_db (map (fun s => if String.eqb (site_id s) sid
                        then mk_site (site_id s) (name s) (uprn s) (site_code s)
                                     (Some stat) (site_type_code s) (Some ts)
                        else s) (sites st))
         (plans st),
   List.length (filter (fun s => String.eqb (site_id s) sid) (sites st))).

(** [api_update_site]; [ts] is [CURRENT_TIMESTAMP]. With [rowcount == 0] the
    connection is closed without commit. *)
Definition api_update_site (ts : string) (sid : string) (stat : string) (st : db)
    : response * db :=
  let '(st', rowcount) := update_site_rows ts sid stat st in
  if Nat.eqb rowcount 0 then (RespErr 404, st) else (RespOk, st').

(** PATCH [/api/site/{site_id}]. *)
Definition patch_site (ts : string) (sid : string) (raw_status : json) (st : db)
    : response * db :=
  match validate_SiteUpdate raw_status with
  | None => (RespErr 422, st)
  | Some stat => api_update_site ts sid stat st
  end.

(* ------------------------------------------------------------------ *)
(** ** Concrete store used by the examples below *)

Definition ex_site : site :=
  mk_site "S1" (Some "Alpha Depot"%string) None None (Some "Active"%string) None None.

Definition ex_plan : ppm_plan :=
  mk_plan 7 "S1" (Some 3) (Some "High"%string) (Some "2024-01-01"%string)
          (Some "2025-03-15"%string) (Some 1) None None None.


Definition ex_today : Z := days_from_civil 2025 3 1.

Definition ex_raw (fd nd ia rr ra su : option json) : ppm_update_raw :=
  mk_raw fd nd ia rr ra su.

(* ------------------------------------------------------------------ *)
(** ** Effect of the SET list of [api_update_ppm] on one row *)








(* ------------------------------------------------------------------ *)
(** ** Claims *)

(** C5: whenever [has_overdue] is true the classifier answers [DUE],
    whatever [min_next_due] is, absent included. *)
Theorem classify_overdue_is_due : forall today min_next_due,
  classify_site_status today min_next_due true = Ok DUE.
Proof. reflexivity. Qed.

(** C6: with [has_overdue] false, a [min_next_due] on today gives [DUE_SOON],
    on yesterday [DUE], on today + 30 days [DUE_SOON], on today + 31 days
    [OK], and an absent one gives [OK] (today at least 30 days before
    [date.max]). *)
Theorem classify_boundaries : forall today,
  today + 30 <= date_max ->
  (forall s, fromisoformat s = Some today ->
             classify_site_status today (Some s) false = Ok DUE_SOON) /\
  (forall s, fromisoformat s = Some (today - 1) ->
             classify_site_status today (Some s) false = Ok DUE) /\
  (forall s, fromisoformat s = Some (today + 30) ->
             classify_site_status today (Some s) false = Ok DUE_SOON) /\
  (forall s, fromisoformat s = Some (today + 31) ->
             classify_site_status today (Some s) false = Ok OK) /\
  classify_site_status today None false = Ok OK.
Proof.
  intros today Hmax.
  assert (Hne : forall s d, fromisoformat s = Some d -> String.eqb s "" = false).
  { intros s d H. destruct (String.eqb_spec s "") as [E|E]; [subst; discriminate | reflexivity]. }
  unfold classify_site_status.
  split; [|split; [|split; [|split]]]; try reflexivity; intros s Hs;
    rewrite (Hne s _ Hs), Hs;
    repeat match goal with
           | |- context [?a <? ?b] => destruct (Z.ltb_spec a b)
           | |- context [?a <=? ?b] => destruct (Z.leb_spec a b)
           end; first [reflexivity | lia].
Qed.

Lemma classify_boundaries_witness :
  ex_today + 30 <= date_max /\
  classify_site_status ex_today (Some "2025-03-31"%string) false = Ok DUE_SOON.
Proof.
  split; [vm_compute; discriminate |].
  apply (proj1 (proj2 (proj2 (classify_boundaries ex_today ltac:(vm_compute; discriminate))))).
  vm_compute. reflexivity.
Defined.












(** C2 (code bug): an empty [finished_date] sent with another field is
    acknowledged but the stored [finished_date] is kept, not cleared: the
    validator has already turned [""] into [None], which the update loop
    skips. An empty [retired_reason] (no validator) is cleared. *)
Theorem empty_finished_date_not_cleared :
  let st' := snd (patch_ppm "2025-03-01" 7
                   (ex_raw (Some (JStr "")) None None (Some (JStr "")) None None)
                   (mk_db [ex_site] [ex_plan])) in
  fst (patch_ppm "2025-03-01" 7
         (ex_raw (Some (JStr "")) None None (Some (JStr "")) None None)
         (mk_db [ex_site] [ex_plan])) = RespOk /\
  map finished_date (plans st') = [Some "2024-01-01"%string] /\
  map retired_reason (plans st') = [None].
Proof. vm_compute. auto. Qed.






(** C9: the status update accepts exactly the five enum values (otherwise
    422, store unchanged); for a known site it acknowledges and every row with
    that id gets the new status and [updated_at = CURRENT_TIMESTAMP]; for an
    id matching no row it answers 404 and the store is unchanged. *)
Theorem site_status_update : forall ts sid st,
  (forall raw stat, validate_SiteUpdate raw = Some stat <->
                    raw = JStr stat /\ In stat site_statuses) /\
  (forall raw, validate_SiteUpdate raw = None -> patch_site ts sid raw st = (RespErr 422, st)) /\
  (forall stat, In stat site_statuses ->
     (exists s, In s (sites st) /\ site_id s = sid) ->
     fst (patch_site ts sid (JStr stat) st) = RespOk /\
     forall s, In s (sites (snd (patch_site ts sid (JStr stat) st))) -> site_id s = sid ->
       status s = Some stat /\ updated_at s = Some ts) /\
  (forall raw, (forall s, In s (sites st) -> site_id s <> sid) ->
     exists code, patch_site ts sid raw st = (RespErr code, st)
                  /\ (validate_SiteUpdate raw <> None -> code = 404)).
Proof.
  intros ts sid st.
  assert (Hval : forall raw stat, validate_SiteUpdate raw = Some stat <->
                                  raw = JStr stat /\ In stat site_statuses).
  { intros raw stat. split.
    - destruct raw as [| | |s| | |]; unfold validate_SiteUpdate; try (intros H; discriminate H).
      destruct (existsb (String.eqb s) site_statuses) eqn:E; [|intros H; discriminate H].
      intros H; injection H as <-. split; [reflexivity|].
      apply existsb_exists in E as [x [Hx Ex]]. apply String.eqb_eq in Ex. subst. exact Hx.
    - intros [-> Hin]. unfold validate_SiteUpdate.
      replace (existsb (String.eqb stat) site_statuses) with true; [reflexivity|].
      symmetry. apply existsb_exists. exists stat. split; [exact Hin | apply String.eqb_refl]. }
  split; [exact Hval | split; [| split]].
  - intros raw H. unfold patch_site. rewrite H. reflexivity.
  - intros stat Hin [s0 [Hs0 Hid0]].
    assert (Hv : validate_SiteUpdate (JStr stat) = Some stat) by (apply Hval; auto).
    assert (Hcnt : Nat.eqb (List.length (filter (fun s => String.eqb (site_id s) sid) (sites st))) 0
                   = false).
    { apply Nat.eqb_neq. intros E. apply length_zero_iff_nil in E.
      assert (In s0 (filter (fun s => String.eqb (site_id s) sid) (sites st))) as Hf.
      { apply filter_In. split; [exact Hs0 | apply String.eqb_eq; exact Hid0]. }
      rewrite E in Hf. contradiction. }
    unfold patch_site, api_update_site, update_site_rows. rewrite Hv, Hcnt.
    split; [reflexivity |].
    intros s Hs Hid. simpl in Hs. apply in_map_iff in Hs as [s1 [Heq _]].
    destruct (String.eqb_spec (site_id s1) sid) as [E|E].
    + subst s. simpl. auto.
    + subst s. contradiction.
  - intros raw Hnone. unfold patch_site.
    destruct (validate_SiteUpdate raw) as [stat|].
    + exists 404. split; [| reflexivity].
      unfold api_update_site, update_site_rows.
      assert (Hf : forall l, (forall s, In s l -> site_id s <> sid) ->
                             filter (fun s => String.eqb (site_id s) sid) l = []).
      { induction l as [|x l IH]; intros Hl; simpl; [reflexivity |].
        destruct (String.eqb_spec (site_id x) sid) as [E|E].
        - exfalso. apply (Hl x); [left; reflexivity | exact E].
        - apply IH. intros y Hy. apply Hl. right. exact Hy. }
      rewrite (Hf _ Hnone). reflexivity.
    + exists 422. split; [reflexivity | intros H; contradiction].
Qed.

Lemma site_status_update_witness :
  patch_site "2025-03-01 10:00:00" "S9" (JStr "Closed") (mk_db [ex_site] [ex_plan])
    = (RespErr 404, mk_db [ex_site] [ex_plan]).
Proof.
  destruct (proj2 (proj2 (proj2 (site_status_update "2025-03-01 10:00:00" "S9"
              (mk_db [ex_site] [ex_plan])))) (JStr "Closed")) as [code [E Hc]].
  - intros s Hs. simpl in Hs. destruct Hs as [<- | []]. discriminate.
  - rewrite E. rewrite Hc; [reflexivity | discriminate].
Defined.

(** C1 (code bug): with [due_window = 'all'] (the default) and neither
    [category_id] nor [priority], [build_where] still appends an [EXISTS] on
    [view_active_ppm], because the string ['all'] is truthy; a site with no
    active plan that matches the remaining filter ([status = 'Active']) is
    dropped from the listing. *)
Theorem due_window_all_requires_active_plan :
  build_where (sites_filters None (Some "Active"%string) None None None "all")
    = [SC_status "Active"; SC_exists []] /\
  where_holds ex_today (mk_db [ex_site] []) [SC_status "Active"] ex_site = true /\
  api_sites ex_today (mk_db [ex_site] []) None (Some "Active"%string) None None None "all" 50
    = Ok [].
Proof. vm_compute. auto. Qed.







Lemma existsb_pointwise {A} (g h : A -> bool) (l : list A) :
  (forall x, g x = h x) -> existsb g l = existsb h l.
Proof.
  intros H. induction l as [|x l IH]; simpl; [reflexivity |]. rewrite H, IH. reflexivity.
Qed.





(* ================================================================== *)
(** * Read endpoints beyond the listing, and the export *)

From Stdlib Require Import Sorted Permutation.

(* ------------------------------------------------------------------ *)
(** ** Ordering by a text key *)

(** Insertion after the equal elements: a stable sort. SQLite leaves the
    order of rows with equal sort keys unspecified; this is one choice. *)
Fixpoint insert_sorted {A} (le : A -> A -> bool) (x : A) (l : list A) : list A :=
  match l with
  | [] => [x]
  | y :: l' => if le y x then y :: insert_sorted le x l' else x :: l
  end.

Definition isort {A} (le : A -> A -> bool) (l : list A) : list A :=
  fold_left (fun acc x => insert_sorted le x acc) l [].

Section Isort.
Context {A : Type} (le : A -> A -> bool).
Hypothesis le_total : forall a b, le a b = true \/ le b a = true.

Let R a b := le a b = true.

Lemma insert_sorted_perm : forall x l, Permutation (insert_sorted le x l) (x :: l).
Proof.
  intros x l; induction l as [|y l IH]; simpl; [auto |].
  destruct (le y x); [| auto].
  eapply perm_trans; [apply perm_skip, IH | apply perm_swap].
Qed.

Lemma insert_sorted_sorted : forall x l, Sorted R l -> Sorted R (insert_sorted le x l).
Proof.
  intros x l; induction l as [|y l IH]; simpl; intros H; [auto |].
  destruct (le y x) eqn:E.
  - apply Sorted_inv in H as [Hl Hh]. constructor; [apply IH, Hl |].
    destruct l as [|z l]; simpl; [constructor; exact E |].
    destruct (le z x); constructor; [inversion Hh; assumption | exact E].
  - constructor; [exact H |]. constructor. unfold R.
    destruct (le_total x y) as [T|T]; [exact T | congruence].
Qed.

Lemma isort_perm_acc : forall l acc,
  Permutation (fold_left (fun acc x => insert_sorted le x acc) l acc) (l ++ acc).
Proof.
  intros l; induction l as [|x l IH]; intros acc; simpl; [auto |].
  eapply perm_trans; [apply IH |].
  eapply perm_trans; [apply Permutation_app_head, insert_sorted_perm |].
  apply Permutation_sym, Permutation_middle.
Qed.

Lemma isort_perm : forall l, Permutation (isort le l) l.
Proof. intros l. unfold isort. rewrite <- (app_nil_r l) at 2. apply isort_perm_acc. Qed.

Lemma isort_sorted : forall l, Sorted R (isort le l).
Proof.
  intros l. unfold isort.
  assert (G : forall acc, Sorted R acc ->
              Sorted R (fold_left (fun acc x => insert_sorted le x acc) l acc)).
  { induction l as [|x l IH]; intros acc H; simpl; [exact H |].
    apply IH, insert_sorted_sorted, H. }
  apply G. constructor.
  Qed.
End Isort.

Lemma filter_perm {A} (g : A -> bool) : forall l l',
  Permutation l l' -> Permutation (filter g l) (filter g l').
Proof.
  intros l l' H; induction H; simpl.
  - constructor.
  - destruct (g x); auto.
  - destruct (g x), (g y); auto using perm_swap.
  - eapply perm_trans; eauto.
Qed.

Lemma filter_filter_andb {A} (g h : A -> bool) : forall l,
  filter g (filter h l) = filter (fun x => h x && g x) l.
Proof.
  intros l; induction l as [|x l IH]; simpl; [reflexivity |].
  destruct (h x); simpl; [destruct (g x); simpl |]; rewrite IH; reflexivity.
Qed.

(* ------------------------------------------------------------------ *)
(** ** [api_ppm_by_site] *)

(** A row of the [category] table. *)
Record category := mk_category {
  cat_category_id : Z;
  cat_name : option string
}.

(** [p.*, c.name AS category_name]. *)
Record ppm_row := mk_ppm_row {
  row_plan : ppm_plan;
  category_name : option string
}.

(** [LEFT JOIN category c ON c.category_id = p.category_id]: one row per
    matching category, or one row with a NULL name when none matches. *)
Definition left_join_category (cats : list category) (p : ppm_plan) : list ppm_row :=
  match filter (fun c => sql_int_eq (category_id p) (cat_category_id c)) cats with
  | [] => [mk_ppm_row p None]
  | ms => map (fun c => mk_ppm_row p (cat_name c)) ms
  end.

(** [COALESCE(p.next_due_date, '9999-12-31')]. *)
Definition due_key (r : ppm_row) : string :=
  match next_due_date (row_plan r) with
  | Some d => d
  | None => "9999-12-31"
  end.

Definition due_key_le (a b : ppm_row) : bool := String.leb (due_key a) (due_key b).

(** [api_ppm_by_site]: all plans of the site when [include_inactive] is
    truthy, else the site's rows of [view_active_ppm]; ordered by
    [due_key]. *)
Definition api_ppm_by_site (today : Z) (st : db) (cats : list category)
    (sid : string) (include_inactive : Z) : list ppm_row :=
  let src :=
    if negb (Z.eqb include_inactive 0)
    then filter (fun p => String.eqb (plan_site_id p) sid) (plans st)
    else filter (fun p => String.eqb (plan_site_id p) sid)
                (filter (view_active_ppm (iso_of_days today)) (plans st)) in
  isort due_key_le (flat_map (left_join_category cats) src).

Lemma due_key_le_total : forall a b, due_key_le a b = true \/ due_key_le b a = true.
Proof. intros a b. apply String.leb_total. Qed.

Lemma left_join_category_plan : forall cats p r,
  In r (left_join_category cats p) -> row_plan r = p.
Proof.
  intros cats p r. unfold left_join_category.
  destruct (filter _ cats) as [|c cs].
  - intros [<- | []]. reflexivity.
  - intros H. apply in_map_iff in H as [c' [<- _]]. reflexivity.
Qed.


Lemma filter_all_false {A} (g : A -> bool) : forall l,
  (forall x, In x l -> g x = false) -> filter g l = [].
Proof.
  intros l; induction l as [|x l IH]; intros H; simpl; [reflexivity |].
  rewrite (H x (or_introl eq_refl)). apply IH. intros y Hy. apply H. right. exact Hy.
Qed.

Lemma filter_flat_map_join : forall (g : ppm_plan -> bool) cats l,
  filter (fun r => g (row_plan r)) (flat_map (left_join_category cats) l)
  = flat_map (left_join_category cats) (filter g l).
Proof.
  intros g cats l; induction l as [|p l IH]; simpl; [reflexivity |].
  rewrite filter_app, IH.
  destruct (g p) eqn:E; simpl.
  - f_equal. apply forallb_filter_id. apply forallb_forall.
    intros r Hr. rewrite (left_join_category_plan _ _ _ Hr). exact E.
  - rewrite filter_all_false; [reflexivity |].
    intros r Hr. rewrite (left_join_category_plan _ _ _ Hr), E. reflexivity.
Qed.

Lemma ppm_listing_membership : forall today st cats sid inc r,
  In r (api_ppm_by_site today st cats sid inc) <->
  In r (flat_map (left_join_category cats)
          (if negb (Z.eqb inc 0)
           then filter (fun p => String.eqb (plan_site_id p) sid) (plans st)
           else filter (fun p => String.eqb (plan_site_id p) sid)
                       (filter (view_active_ppm (iso_of_days today)) (plans st)))).
Proof.
  intros. unfold api_ppm_by_site. split; apply Permutation_in.
  - apply isort_perm.
  - apply Permutation_sym, isort_perm.
Qed.


(** The name of the category with the given id, NULL when there is none. *)
Definition category_name_of (cats : list category) (c : option Z) : option string :=
  match c with
  | Some v => match find (fun k => Z.eqb (cat_category_id k) v) cats with
              | Some k => cat_name k
              | None => None
              end
  | None => None
  end.

Lemma filter_key_find : forall v cats,
  NoDup (map cat_category_id cats) ->
  filter (fun c => sql_int_eq (Some v) (cat_category_id c)) cats
  = match find (fun k => Z.eqb (cat_category_id k) v) cats with
    | Some k => [k]
    | None => []
    end.
Proof.
  intros v cats; induction cats as [|k ks IH]; intros Hnd; [reflexivity |].
  simpl in Hnd. apply NoDup_cons_iff in Hnd as [Hk Hnd]. simpl.
  rewrite (Z.eqb_sym (cat_category_id k) v).
  destruct (Z.eqb_spec v (cat_category_id k)) as [E|E].
  - f_equal. apply filter_all_false. intros x Hx. simpl.
    apply Z.eqb_neq. intros E'. apply Hk. rewrite <- E, E'. apply in_map, Hx.
  - apply IH, Hnd.
Qed.

Lemma left_join_unique : forall cats p,
  NoDup (map cat_category_id cats) ->
  left_join_category cats p = [mk_ppm_row p (category_name_of cats (category_id p))].
Proof.
  intros cats p Hnd. unfold left_join_category, category_name_of.
  destruct (category_id p) as [v|] eqn:E.
  - rewrite (filter_key_find v cats Hnd).
    destruct (find _ cats); reflexivity.
  - rewrite filter_all_false; [reflexivity |]. intros; reflexivity.
Qed.

Lemma flat_map_join_unique : forall cats l,
  NoDup (map cat_category_id cats) ->
  flat_map (left_join_category cats) l
  = map (fun p => mk_ppm_row p (category_name_of cats (category_id p))) l.
Proof.
  intros cats l Hnd; induction l as [|p l IH]; [reflexivity |].
  simpl. rewrite left_join_unique by exact Hnd. simpl. f_equal. exact IH.
Qed.

(** When category ids are unique (a primary key), the listing has exactly
    one row per plan of the requested site (per plan in force, active and
    not currently suspended, when [include_inactive = 0]), a plan with no
    or an unknown category included; and each row's [category_name] is the
    name of the category whose id is the plan's [category_id], NULL when
    there is none. *)
Theorem ppm_listing_rows : forall today st cats sid inc,
  NoDup (map cat_category_id cats) ->
  Permutation (map row_plan (api_ppm_by_site today st cats sid inc))
    (filter (fun p => String.eqb (plan_site_id p) sid
                      && (negb (Z.eqb inc 0) || view_active_ppm (iso_of_days today) p))
            (plans st)) /\
  forall r, In r (api_ppm_by_site today st cats sid inc) ->
    category_name r = category_name_of cats (category_id (row_plan r)).
Proof.
  intros today st cats sid inc Hnd. split.
  - unfold api_ppm_by_site.
    eapply perm_trans; [apply Permutation_map, isort_perm |].
    rewrite flat_map_join_unique by exact Hnd. rewrite map_map. simpl. rewrite map_id.
    destruct (Z.eqb_spec inc 0) as [E|E]; simpl.
    + rewrite filter_filter_andb.
      rewrite (filter_ext (fun x => view_active_ppm (iso_of_days today) x
                                    && String.eqb (plan_site_id x) sid)
                          (fun p => String.eqb (plan_site_id p) sid
                                    && view_active_ppm (iso_of_days today) p))
        by (intros; apply andb_comm).
      apply Permutation_refl.
    + rewrite (filter_ext (fun p => String.eqb (plan_site_id p) sid && true)
                          (fun p => String.eqb (plan_site_id p) sid))
        by (intros; apply andb_true_r).
      apply Permutation_refl.
  - intros r Hr. apply ppm_listing_membership in Hr.
    rewrite flat_map_join_unique in Hr by exact Hnd.
    apply in_map_iff in Hr as [p [<- _]]. reflexivity.
Qed.

Lemma ppm_listing_rows_witness :
  NoDup (map cat_category_id [mk_category 3 (Some "Fire"%string)]) /\
  forall r, In r (api_ppm_by_site ex_today (mk_db [ex_site] [ex_plan])
                    [mk_category 3 (Some "Fire"%string)] "S1" 0) ->
    category_name r = category_name_of [mk_category 3 (Some "Fire"%string)]
                        (category_id (row_plan r)).
Proof.
  assert (H : NoDup (map cat_category_id [mk_category 3 (Some "Fire"%string)]))
    by (simpl; constructor; [intros [] | constructor]).
  split; [exact H |].
  apply (proj2 (ppm_listing_rows ex_today (mk_db [ex_site] [ex_plan])
                  [mk_category 3 (Some "Fire"%string)] "S1" 0 H)).
Defined.

Lemma string_leb_trans : forall a b c,
  String.leb a b = true -> String.leb b c = true -> String.leb a c = true.
Proof.
  unfold String.leb.
  induction a as [|x a IH]; intros [|y b] [|z c] H1 H2; simpl in *;
    try reflexivity; try discriminate.
  unfold Ascii.compare in *.
  destruct (N.compare_spec (N_of_ascii x) (N_of_ascii y)) as [E1|E1|E1];
  destruct (N.compare_spec (N_of_ascii y) (N_of_ascii z)) as [E2|E2|E2]; try discriminate;
  destruct (N.compare_spec (N_of_ascii x) (N_of_ascii z)) as [E3|E3|E3];
    try reflexivity; try lia.
  exact (IH b c H1 H2).
Qed.

Lemma string_leb_refl : forall a, String.leb a a = true.
Proof. intros a. destruct (String.leb_total a a) as [T|T]; exact T. Qed.

Lemma sorted_filter {A} (R : A -> A -> Prop) (g : A -> bool) :
  (forall x y z, R x y -> R y z -> R x z) ->
  forall l, Sorted R l -> Sorted R (filter g l).
Proof.
  intros Htr l Hs. apply StronglySorted_Sorted.
  apply Sorted_StronglySorted in Hs; [| intros x y z; apply Htr].
  induction Hs as [|a l Hs IH Hf]; simpl; [constructor |].
  destruct (g a); [| exact IH].
  constructor; [exact IH |].
  apply Forall_forall. intros x Hx. apply filter_In in Hx as [Hx _].
  rewrite Forall_forall in Hf. apply Hf, Hx.
Qed.

Lemma sorted_due_keys : forall l,
  Sorted (fun a b => due_key_le a b = true) l ->
  Sorted (fun x y => String.leb x y = true) (map due_key l).
Proof.
  intros l H; induction H as [|a l Hs IH Hh]; simpl; constructor; [exact IH |].
  destruct Hh; simpl; constructor; assumption.
Qed.

Lemma sorted_strings_perm_eq : forall l1 l2,
  Sorted (fun x y => String.leb x y = true) l1 ->
  Sorted (fun x y => String.leb x y = true) l2 ->
  Permutation l1 l2 -> l1 = l2.
Proof.
  intros l1 l2 H1 H2 Hp.
  apply Sorted_StronglySorted in H1; [| intros x y z; apply string_leb_trans].
  apply Sorted_StronglySorted in H2; [| intros x y z; apply string_leb_trans].
  revert l2 H2 Hp. induction H1 as [|x l1 H1 IH Hf1]; intros l2 H2 Hp.
  - symmetry. apply Permutation_nil, Hp.
  - destruct H2 as [|y l2 H2 Hf2]; [apply Permutation_sym, Permutation_nil in Hp; discriminate |].
    assert (Exy : x = y).
    { apply String.leb_antisym.
      - assert (Hy : In y (x :: l1)) by (apply (Permutation_in _ (Permutation_sym Hp)); left; reflexivity).
        destruct Hy as [<- | Hy]; [apply string_leb_refl |].
        rewrite Forall_forall in Hf1. apply Hf1, Hy.
      - assert (Hx : In x (y :: l2)) by (apply (Permutation_in _ Hp); left; reflexivity).
        destruct Hx as [<- | Hx]; [apply string_leb_refl |].
        rewrite Forall_forall in Hf2. apply Hf2, Hx. }
    subst y. f_equal. apply IH; [exact H2 |]. apply Permutation_cons_inv in Hp. exact Hp.
Qed.

(** The active-only listing ([include_inactive = 0]) is the full listing
    with the rows that are not in force removed, up to the order of rows
    with equal due dates: the same rows, and the same due date (NULL read
    as '9999-12-31') at every position. *)
Theorem ppm_listing_active_is_filtered_full : forall today st cats sid,
  Permutation (api_ppm_by_site today st cats sid 0)
    (filter (fun r => view_active_ppm (iso_of_days today) (row_plan r))
            (api_ppm_by_site today st cats sid 1)) /\
  map due_key (api_ppm_by_site today st cats sid 0)
  = map due_key (filter (fun r => view_active_ppm (iso_of_days today) (row_plan r))
                        (api_ppm_by_site today st cats sid 1)).
Proof.
  intros today st cats sid.
  assert (Hp : Permutation (api_ppm_by_site today st cats sid 0)
                 (filter (fun r => view_active_ppm (iso_of_days today) (row_plan r))
                         (api_ppm_by_site today st cats sid 1))).
  { unfold api_ppm_by_site. simpl.
    eapply perm_trans; [apply isort_perm |].
    apply Permutation_sym.
    eapply perm_trans; [apply filter_perm, isort_perm |].
    rewrite filter_flat_map_join, !filter_filter_andb.
    rewrite (filter_ext (fun x => String.eqb (plan_site_id x) sid
                                  && view_active_ppm (iso_of_days today) x)
                        (fun x => view_active_ppm (iso_of_days today) x
                                  && String.eqb (plan_site_id x) sid))
      by (intros; apply andb_comm).
    apply Permutation_refl. }
  split; [exact Hp |].
  apply sorted_strings_perm_eq.
  - apply sorted_due_keys. unfold api_ppm_by_site. apply isort_sorted, due_key_le_total.
  - apply sorted_due_keys, sorted_filter.
    + intros x y z. apply string_leb_trans.
    + unfold api_ppm_by_site. apply isort_sorted, due_key_le_total.
  - apply Permutation_map, Hp.
Qed.



(* ------------------------------------------------------------------ *)
(** ** What the write endpoints leave alone *)

Lemma set_text_frame : forall p c v,
  ppm_plan_id (set_text p c v) = ppm_plan_id p /\ plan_site_id (set_text p c v) = plan_site_id p
  /\ category_id (set_text p c v) = category_id p /\ priority (set_text p c v) = priority p.
Proof. intros p [] v; repeat split. Qed.

Lemma fold_apply_frame : forall now fields p,
  let q := fold_left (apply_assignment now) fields p in
  ppm_plan_id q = ppm_plan_id p /\ plan_site_id q = plan_site_id p
  /\ category_id q = category_id p /\ priority q = priority p.
Proof.
  intros now fields; induction fields as [|a fields IH]; intros p; simpl; [auto |].
  destruct (IH (apply_assignment now p a)) as [E1 [E2 [E3 E4]]].
  rewrite E1, E2, E3, E4.
  destruct a as [c e | v]; simpl; [apply set_text_frame | repeat split].
Qed.

(** A PPM update never touches the [site] table nor any row but the one
    with the requested id, keeps the number and order of rows, and never
    changes a row's id, site, category or priority. *)
Theorem ppm_update_frame : forall now id body st,
  let st' := snd (api_update_ppm now id body st) in
  sites st' = sites st /\
  List.length (plans st') = List.length (plans st) /\
  forall i p, nth_error (plans st) i = Some p ->
    exists p', nth_error (plans st') i = Some p' /\
      ppm_plan_id p' = ppm_plan_id p /\ plan_site_id p' = plan_site_id p /\
      category_id p' = category_id p /\ priority p' = priority p /\
      (ppm_plan_id p <> id -> p' = p).
Proof.
  intros now id body st st'. subst st'. unfold api_update_ppm.
  destruct (ppm_fields body) as [|a fs] eqn:Ef; simpl.
  - split; [reflexivity | split; [reflexivity |]].
    intros i p H. exists p. repeat split; auto.
  - split; [reflexivity | split; [apply length_map |]].
    intros i p H. rewrite nth_error_map, H. simpl.
    destruct (Z.eqb_spec (ppm_plan_id p) id) as [E|E].
    + eexists. split; [reflexivity |].
      destruct (fold_apply_frame now (a :: fs) p) as [E1 [E2 [E3 E4]]].
      repeat split; auto. intros; contradiction.
    + exists p. repeat split; auto.
Qed.



(** A site status update never touches the [ppm_plan] table, keeps the
    number and order of sites, never changes a site's id, name, UPRN, code or
    type, and leaves every site with another id unchanged. *)
Theorem site_update_frame : forall ts sid raw st,
  let st' := snd (patch_site ts sid raw st) in
  plans st' = plans st /\
  List.length (sites st') = List.length (sites st) /\
  forall i s, nth_error (sites st) i = Some s ->
    exists s', nth_error (sites st') i = Some s' /\
      site_id s' = site_id s /\ name s' = name s /\ uprn s' = uprn s /\
      site_code s' = site_code s /\ site_type_code s' = site_type_code s /\
      (site_id s <> sid -> s' = s).
Proof.
  intros ts sid raw st st'. subst st'. unfold patch_site.
  destruct (validate_SiteUpdate raw) as [stat|]; simpl.
  2: { split; [reflexivity | split; [reflexivity |]]. intros i s H. exists s. repeat split; auto. }
  unfold api_update_site, update_site_rows.
  destruct (Nat.eqb _ 0); simpl.
  - split; [reflexivity | split; [reflexivity |]]. intros i s H. exists s. repeat split; auto.
  - split; [reflexivity | split; [apply length_map |]].
    intros i s H. rewrite nth_error_map, H. simpl.
    destruct (String.eqb_spec (site_id s) sid) as [E|E].
    + eexists. split; [reflexivity |]. repeat split; auto. intros; contradiction.
    + exists s. repeat split; auto.
Qed.

(* ------------------------------------------------------------------ *)
(** ** The site listing: selection, order, limit and per-row aggregates *)

Lemma map_outcome_ok {A B} (f : A -> outcome B) : forall l ys,
  map_outcome f l = Ok ys -> Forall2 (fun x y => f x = Ok y) l ys.
Proof.
  intros l; induction l as [|x l IH]; intros ys H; simpl in H.
  - injection H as <-. constructor.
  - destruct (f x) eqn:Ef; [| discriminate].
    destruct (map_outcome f l) eqn:El; [| discriminate].
    injection H as <-. constructor; auto.
Qed.

Lemma forall2_in_right {A B} (P : A -> B -> Prop) : forall l ys y,
  Forall2 P l ys -> In y ys -> exists x, In x l /\ P x y.
Proof.
  intros l ys y H; induction H as [|x y' l ys Hxy _ IH]; intros Hy; [destruct Hy |].
  destruct Hy as [<- | Hy].
  - exists x. split; [left; reflexivity | exact Hxy].
  - destruct (IH Hy) as [x' [Hx' Hp]]. exists x'. split; [right; exact Hx' | exact Hp].
Qed.

Lemma fold_min_source : forall (l : list ppm_plan) acc m,
  fold_left (fun acc p => match next_due_date p with
                          | Some d => text_min acc d
                          | None => acc end) l acc = Some m ->
  acc = Some m \/ exists p, In p l /\ next_due_date p = Some m.
Proof.
  intros l; induction l as [|p l IH]; intros acc m H; simpl in H; [auto |].
  destruct (IH _ _ H) as [E | [q [Hq Eq]]].
  - destruct (next_due_date p) as [d|] eqn:Ed; [| auto].
    unfold text_min in E. destruct acc as [x|].
    + destruct (String.leb x d); [auto |].
      right. exists p. split; [left; reflexivity | congruence].
    + right. exists p. split; [left; reflexivity | congruence].
  - right. exists q. split; [right; exact Hq | exact Eq].
Qed.

(** The aggregates of a listing row agree with each other: the overdue count
    never exceeds the active-plan count; a site with no active plan shows no
    due date, no overdue plan and [OK]; a row with overdue plans is [DUE];
    and when the earliest due date shown is before today, at least one plan
    is counted overdue. *)
Theorem listing_row_consistency : forall today st q stt sty cat pri dw limit rows,
  api_sites today st q stt sty cat pri dw limit = Ok rows ->
  forall r, In r rows ->
    0 <= overdue_count r <= active_ppm r /\
    (active_ppm r = 0 -> min_next_due r = None /\ overdue_count r = 0 /\ row_ui_status r = OK) /\
    (0 < overdue_count r -> row_ui_status r = DUE) /\
    (forall m, min_next_due r = Some m -> String.ltb m (iso_of_days today) = true ->
               1 <= overdue_count r /\ row_ui_status r = DUE).
Proof.
  intros today st q stt sty cat pri dw limit rows H r Hr.
  unfold api_sites in H. apply map_outcome_ok in H.
  destruct (forall2_in_right _ _ _ _ H Hr) as [s [_ Hs]].
  clear Hr. unfold summarize in Hs.
  set (mine := filter _ (plans st)) in Hs. clearbody mine.
  set (mn0 := fold_left _ mine None) in Hs.
  assert (Hmn0 : forall m, mn0 = Some m -> exists p, In p mine /\ next_due_date p = Some m).
  { intros m E. destruct (fold_min_source _ _ _ E) as [C | C]; [discriminate | exact C]. }
  assert (Hnil : mine = [] -> mn0 = None) by (intros ->; reflexivity).
  clearbody mn0.
  set (ovd := filter _ mine) in Hs.
  assert (Hovd : forall p, In p ovd <-> In p mine /\
           negb (is_null (next_due_date p)) && sql_text_lt (next_due_date p) (iso_of_days today) = true)
    by (intros p; apply filter_In).
  assert (Hle : (List.length ovd <= List.length mine)%nat) by apply filter_length_le.
  clearbody ovd.
  destruct (classify_site_status today _ _) as [u|] eqn:Ec; [| discriminate].
  injection Hs as <-. simpl.
  split; [lia | split; [| split]].
  - intros H0. assert (E : mine = []) by (apply length_zero_iff_nil; lia).
    rewrite (Hnil E) in Ec |- *. subst mine.
    destruct ovd; [| simpl in Hle; lia]. simpl in Ec. injection Ec as <-. auto.
  - intros Hpos. replace (0 <? Z.of_nat (List.length ovd)) with true in Ec
      by (symmetry; apply Z.ltb_lt; exact Hpos).
    simpl in Ec. congruence.
  - intros m Hm Hlt.
    assert (Hm0 : mn0 = Some m) by (destruct mn0 as [x|]; [destruct (String.eqb x ""); congruence | discriminate]).
    destruct (Hmn0 m Hm0) as [p [Hp Hpd]].
    assert (Hpo : In p ovd) by (apply Hovd; rewrite Hpd; simpl; split; [exact Hp | exact Hlt]).
    destruct ovd as [|o ovd]; [contradiction |].
    simpl List.length in *. simpl in Ec. injection Ec as <-. split; [lia | reflexivity].
Qed.

Lemma listing_row_consistency_witness :
  0 <= overdue_count (mk_summary ex_site (Some "2025-03-15"%string) 0 1 DUE_SOON)
    <= active_ppm (mk_summary ex_site (Some "2025-03-15"%string) 0 1 DUE_SOON).
Proof.
  apply (proj1 (listing_row_consistency ex_today (mk_db [ex_site] [ex_plan])
                  None None None None None "all" 50
                  [mk_summary ex_site (Some "2025-03-15"%string) 0 1 DUE_SOON]
                  ltac:(vm_compute; reflexivity) _ (or_introl eq_refl))).
Defined.

(* ------------------------------------------------------------------ *)
(** ** [api_summary] *)

Record summary := mk_summary_counts {
  total_sites : Z;
  active_sites : Z;
  total_ppm_active : Z;
  overdue : Z;
  due_next_30 : Z;
  compliant_sites : Z;
  non_compliant_sites : Z;
  summary_today : string
}.

Definition count {A} (g : A -> bool) (l : list A) : Z := Z.of_nat (List.length (filter g l)).

(** [next_due_date IS NOT NULL AND next_due_date < date('now')]. *)
Definition is_overdue (now : string) (p : ppm_plan) : bool :=
  negb (is_null (next_due_date p)) && sql_text_lt (next_due_date p) now.

(** [api_summary]; [today] serves both [date('now')] and [date.today()]. *)
Definition api_summary (today : Z) (st : db) : summary :=
  let now := iso_of_days today in
  let active := filter (view_active_ppm now) (plans st) in
  let total := Z.of_nat (List.length (sites st)) in
  let act_sites := count (fun s => sql_text_eq (status s) "Active") (sites st) in
  let tot_ppm := Z.of_nat (List.length active) in
  let od := count (is_overdue now) active in
  let d30 := count (fun p => sql_text_between (next_due_date p) now
                                               (iso_of_days (today + 30))) active in
  (* COUNT(DISTINCT s.site_id) over site JOIN view_active_ppm p WHERE overdue *)
  let joined := flat_map (fun s => map (fun _ => site_id s)
                   (filter (fun p => String.eqb (plan_site_id p) (site_id s) && is_overdue now p)
                           active)) (sites st) in
  let nc := Z.of_nat (List.length (nodup string_dec joined)) in
  mk_summary_counts total act_sites tot_ppm od d30 (act_sites - nc) nc now.

Lemma ltb_leb_exclusive : forall x y,
  String.ltb x y = true -> String.leb y x = true -> False.
Proof.
  intros x y H1 H2. unfold String.ltb, String.leb in *.
  rewrite String.compare_antisym in H2.
  destruct (String.compare x y); simpl in *; discriminate.
Qed.

Lemma filter_disjoint_length {A} (g h : A -> bool) : forall l,
  (forall x, In x l -> g x = true -> h x = true -> False) ->
  (List.length (filter g l) + List.length (filter h l) <= List.length l)%nat.
Proof.
  intros l; induction l as [|x l IH]; intros H; simpl; [lia |].
  assert (IH' := IH (fun y Hy => H y (or_intror Hy))).
  specialize (H x (or_introl eq_refl)).
  destruct (g x), (h x); simpl; try lia; exfalso; apply H; reflexivity.
Qed.

(** No active plan is counted both overdue and due within 30 days, so
    [overdue + due_next_30 <= total_ppm_active]. *)
Theorem summary_due_counts_bounded : forall today st,
  let r := api_summary today st in
  0 <= overdue r /\ 0 <= due_next_30 r /\
  overdue r + due_next_30 r <= total_ppm_active r.
Proof.
  intros today st r. subst r. unfold api_summary, count. simpl.
  set (l := filter _ (plans st)).
  assert (H := filter_disjoint_length (is_overdue (iso_of_days today))
                 (fun p => sql_text_between (next_due_date p) (iso_of_days today)
                             (iso_of_days (today + 30))) l).
  assert (Hd : forall x, In x l -> is_overdue (iso_of_days today) x = true ->
            sql_text_between (next_due_date x) (iso_of_days today) (iso_of_days (today + 30)) = true ->
            False).
  { intros x _ H1 H2. unfold is_overdue, sql_text_between, sql_text_ge, sql_text_lt in *.
    destruct (next_due_date x) as [d|]; simpl in *; [| discriminate].
    apply andb_true_iff in H2 as [H2 _].
    eapply ltb_leb_exclusive; [exact H1 | exact H2]. }
  specialize (H Hd). lia.
Qed.

Lemma joined_site_ids : forall now (act : list ppm_plan) (ss : list site) x,
  In x (flat_map (fun s => map (fun _ => site_id s)
          (filter (fun p => String.eqb (plan_site_id p) (site_id s) && is_overdue now p) act)) ss)
  <-> exists s, In s ss /\ site_id s = x /\
       existsb (fun p => String.eqb (plan_site_id p) (site_id s) && is_overdue now p) act = true.
Proof.
  intros now act ss x. rewrite in_flat_map. split.
  - intros [s [Hs Hx]]. apply in_map_iff in Hx as [p [Hpx Hp]].
    exists s. split; [exact Hs | split; [exact Hpx |]].
    apply existsb_exists. exists p. apply filter_In in Hp. exact Hp.
  - intros [s [Hs [Hx He]]]. exists s. split; [exact Hs |].
    apply existsb_exists in He as [p [Hp Hg]].
    apply in_map_iff. exists p. split; [exact Hx | apply filter_In; auto].
Qed.

(** The number of non-compliant sites counts distinct site ids, so it is
    never more than the number of sites. *)
Theorem summary_non_compliant_bounded : forall today st,
  0 <= non_compliant_sites (api_summary today st) <= total_sites (api_summary today st).
Proof.
  intros today st. unfold api_summary. simpl. split; [lia |].
  apply Nat2Z.inj_le.
  rewrite <- (length_map site_id (sites st)).
  apply NoDup_incl_length; [apply NoDup_nodup |].
  intros x Hx. apply nodup_In, joined_site_ids in Hx as [s [Hs [<- _]]].
  apply in_map, Hs.
Qed.

(** A site that has an in-force plan whose due date has passed. *)
Definition has_overdue_plan (today : Z) (st : db) (s : site) : bool :=
  existsb (fun p => view_active_ppm (iso_of_days today) p
                    && String.eqb (plan_site_id p) (site_id s)
                    && is_overdue (iso_of_days today) p) (plans st).

Lemma existsb_filter {A} (g h : A -> bool) : forall l,
  existsb g (filter h l) = existsb (fun x => h x && g x) l.
Proof.
  intros l; induction l as [|x l IH]; simpl; [reflexivity |].
  destruct (h x); simpl; rewrite IH; reflexivity.
Qed.

Lemma nodup_map_filter {A B} (f : A -> B) (g : A -> bool) : forall l,
  NoDup (map f l) -> NoDup (map f (filter g l)).
Proof.
  intros l; induction l as [|x l IH]; simpl; intros H; [constructor |].
  inversion H as [|y l' Hx Hl]; subst.
  destruct (g x); simpl; [| apply IH, Hl].
  constructor; [| apply IH, Hl].
  intros Hin. apply Hx. apply in_map_iff in Hin as [z [Hz Hzin]].
  apply filter_In in Hzin as [Hzin _]. rewrite <- Hz. apply in_map, Hzin.
Qed.

(** When site ids are unique (as a primary key makes them), the number of
    non-compliant sites is the number of sites with an in-force, overdue
    plan. *)
Theorem summary_non_compliant_exact : forall today st,
  NoDup (map site_id (sites st)) ->
  non_compliant_sites (api_summary today st) = count (has_overdue_plan today st) (sites st).
Proof.
  intros today st Hnd. unfold api_summary, count. simpl. f_equal.
  rewrite <- (length_map site_id (filter (has_overdue_plan today st) (sites st))).
  apply Permutation_length, NoDup_Permutation.
  - apply NoDup_nodup.
  - apply nodup_map_filter, Hnd.
  - intros x. rewrite nodup_In, joined_site_ids, in_map_iff. split.
    + intros [s [Hs [Hx He]]]. exists s. split; [exact Hx |].
      apply filter_In. split; [exact Hs |].
      unfold has_overdue_plan. rewrite existsb_filter in He.
      rewrite <- He. apply existsb_pointwise. intros p. symmetry. apply andb_assoc.
    + intros [s [Hx Hs]]. apply filter_In in Hs as [Hs He].
      exists s. split; [exact Hs | split; [exact Hx |]].
      unfold has_overdue_plan in He. rewrite existsb_filter.
      rewrite <- He. apply existsb_pointwise. intros p. apply andb_assoc.
Qed.

Lemma summary_non_compliant_exact_witness :
  non_compliant_sites (api_summary ex_today
    (mk_db [ex_site] [mk_plan 8 "S1" None None None (Some "2025-01-10"%string) (Some 1) None None None]))
  = 1.
Proof.
  rewrite summary_non_compliant_exact.
  - vm_compute. reflexivity.
  - simpl. constructor; [intros [] | constructor].
Defined.

(* ------------------------------------------------------------------ *)
(** ** The [priorities] list of [api_filters] *)

Definition opt_string_dec : forall a b : option string, {a = b} + {a <> b}.
Proof. decide equality. apply string_dec. Defined.

(** [sorted({(r[0] or "").strip() for r in SELECT DISTINCT priority
    if (r[0] or "").strip()})]: the set is a list without duplicates;
    Python's [sorted] on [str] is code-point order, which is the byte order
    of UTF-8 that [String.leb] uses. *)
Definition filter_priorities (st : db) : list string :=
  let distinct := nodup opt_string_dec (map priority (plans st)) in
  let vals := filter (fun v => negb (String.eqb v ""))
                (map (fun r => strip (match r with Some x => x | None => "" end)) distinct) in
  isort String.leb (nodup string_dec vals).

Lemma sorted_leb_nodup_ltb : forall l,
  Sorted (fun a b => String.leb a b = true) l -> NoDup l ->
  Sorted (fun a b => String.ltb a b = true) l.
Proof.
  intros l; induction l as [|x l IH]; intros Hs Hn; [constructor |].
  apply Sorted_inv in Hs as [Hl Hh]. inversion Hn as [|y l' Hx Hn']; subst.
  constructor; [apply IH; assumption |].
  destruct l as [|y l]; constructor. inversion Hh as [|z l' Hxy]; subst.
  unfold String.ltb, String.leb in *.
  destruct (String.compare x y) eqn:E; try discriminate; [| reflexivity].
  apply String.compare_eq_iff in E. subst. exfalso. apply Hx. left. reflexivity.
Qed.

(** The priority options are strictly increasing (hence without
    duplicates), and hold exactly the non-empty stripped priorities of the
    plans (NULL read as empty). *)
Theorem filter_priorities_spec : forall st,
  Sorted (fun a b => String.ltb a b = true) (filter_priorities st) /\
  forall x, In x (filter_priorities st) <->
    x <> ""%string /\
    exists p, In p (plans st) /\
      strip (match priority p with Some v => v | None => "" end) = x.
Proof.
  intros st. unfold filter_priorities.
  set (vals := filter _ _).
  assert (Hp := isort_perm String.leb (nodup string_dec vals)).
  split.
  - apply sorted_leb_nodup_ltb.
    + apply isort_sorted, String.leb_total.
    + eapply Permutation_NoDup; [apply Permutation_sym, Hp | apply NoDup_nodup].
  - intros x. split.
    + intros Hx. apply (Permutation_in _ Hp), nodup_In in Hx.
      apply filter_In in Hx as [Hx Hne]. apply in_map_iff in Hx as [r [Hr Hin]].
      apply nodup_In, in_map_iff in Hin as [p [Hpr Hp']].
      split; [intros E; rewrite E in Hne; discriminate |].
      exists p. split; [exact Hp' | subst; reflexivity].
    + intros [Hne [p [Hp' Hx]]]. apply (Permutation_in _ (Permutation_sym Hp)), nodup_In.
      apply filter_In. split.
      * apply in_map_iff. exists (priority p). split; [exact Hx |].
        apply nodup_In, in_map, Hp'.
      * apply negb_true_iff, String.eqb_neq, Hne.
Qed.

(* ------------------------------------------------------------------ *)
(** ** [api_export_sites_csv] *)


(** [str(int)]. *)
Fixpoint digits_rev (fuel : nat) (n : Z) : list ascii :=
  match fuel with
  | O => []
  | S f => ascii_of_nat (Z.to_nat (48 + n mod 10))
           :: (if n <? 10 then [] else digits_rev f (n / 10))
  end.

Definition int_str (n : Z) : string :=
  string_of_list_ascii
    (if n <? 0 then "-"%char :: rev (digits_rev 64 (- n)) else rev (digits_rev 64 n)).

(** A cell of the exported row, as [csv] writes it: [None] is empty. *)
Inductive cell :=
| CNone
| CStr (s : string)
| CInt (n : Z).

Definition cell_text (c : cell) : list ascii :=
  match c with
  | CNone => []
  | CStr s => list_ascii_of_string s
  | CInt n => list_ascii_of_string (int_str n)
  end.







(** One row of the export query: the raw sub-select values ([MIN] and
    [SUM] are NULL for a site without active plan; no post-processing). *)
Definition export_row (today : Z) (st : db) (s : site) : list cell :=
  let now := iso_of_days today in
  let mine := filter (fun p => view_active_ppm now p
                               && String.eqb (plan_site_id p) (site_id s)) (plans st) in
  let mn := fold_left (fun acc p => match next_due_date p with
                                    | Some d => text_min acc d
                                    | None => acc end) mine None in
  let od := match mine with
            | [] => None
            | _ => Some (count (fun p => negb (is_null (next_due_date p))
                                          && sql_text_lt (next_due_date p) now) mine)
            end in
  let opt c := match c with Some x => CStr x | None => CNone end in
  [CStr (site_id s); opt (name s); opt (uprn s); opt (site_code s); opt (status s);
   opt (site_type_code s); opt mn;
   match od with Some n => CInt n | None => CNone end;
   CInt (Z.of_nat (List.length mine))].


(** The text of a site-listing row in the nine export columns. *)
Definition listing_row_text (r : site_summary) : list (list ascii) :=
  let s := row_site r in
  let t o := match o with Some x => list_ascii_of_string x | None => [] end in
  [list_ascii_of_string (site_id s); t (name s); t (uprn s); t (site_code s); t (status s);
   t (site_type_code s); t (min_next_due r);
   if active_ppm r =? 0 then [] else list_ascii_of_string (int_str (overdue_count r));
   list_ascii_of_string (int_str (active_ppm r))].















(** When the site listing succeeds for the same parameters, the export holds
    the same sites in the same order, and each exported record has the text
    of the listing row: the same site columns, earliest due date (an empty
    one is blank in both), overdue and active plan counts, except that the
    overdue count is blank for a site with no active plan. *)
Theorem export_agrees_with_listing : forall today st q stt sty cat pri dw limit rows,
  api_sites today st q stt sty cat pri dw limit = Ok rows ->
  map (fun s => map cell_text (export_row today st s))
      (select_sites today st (sites_filters q stt sty cat pri dw) limit)
  = map listing_row_text rows.
Proof.
  intros today st q stt sty cat pri dw limit rows H.
  unfold api_sites in H. apply map_outcome_ok in H.
  generalize dependent (select_sites today st (sites_filters q stt sty cat pri dw) limit).
  intros sel H.
  induction H as [|s r l rs Hsr _ IH]; [reflexivity |].
  cbn [map]. rewrite IH. f_equal.
  unfold summarize in Hsr.
  destruct (classify_site_status _ _ _); [| discriminate].
  injection Hsr as <-.
  unfold export_row, listing_row_text, count. simpl.
  set (mine := filter _ (plans st)).
  set (mn := fold_left _ mine None).
  assert (Ho : forall o, cell_text (match o with Some x => CStr x | None => CNone end)
                        = match o with Some x => list_ascii_of_string x | None => [] end)
    by (intros [x|]; reflexivity).
  rewrite !Ho. clearbody mn.
  assert (Hm : match mn with Some x => list_ascii_of_string x | None => [] end
               = match match mn with
                       | Some x => if String.eqb x "" then None else mn
                       | None => None end
                 with Some x => list_ascii_of_string x | None => [] end).
  { destruct mn as [x|]; [| reflexivity].
    destruct (String.eqb_spec x ""); [subst x |]; reflexivity. }
  rewrite Hm. clear Hm Ho. clearbody mine. destruct mine; reflexivity.
Qed.

Lemma export_agrees_with_listing_witness :
  let st := mk_db [ex_site; mk_site "S2" (Some "Beta, Yard"%string) None None None None None]
                  [ex_plan; mk_plan 8 "S2" (Some 3) None None (Some "2025-02-01"%string)
                                    (Some 1) None None None] in
  exists rows,
    api_sites ex_today st None None None None None "all" 5000 = Ok rows /\
    map (fun s => map cell_text (export_row ex_today st s))
        (select_sites ex_today st (sites_filters None None None None None "all") 5000)
    = map listing_row_text rows.
Proof.
  intros st.
  set (rows := [mk_summary ex_site (Some "2025-03-15"%string) 0 1 DUE_SOON;
                mk_summary (mk_site "S2" (Some "Beta, Yard"%string) None None None None None)
                           (Some "2025-02-01"%string) 1 1 DUE]).
  assert (H : api_sites ex_today st None None None None None "all" 5000 = Ok rows)
    by (vm_compute; reflexivity).
  exists rows. split; [exact H | exact (export_agrees_with_listing _ _ _ _ _ _ _ _ _ _ H)].
Defined.

